(** * web/index.js: the two-phase customization handlers

    A shallow embedding of the request handlers of [web/index.js]
    ([handleUserError], [createPaymentCustomization],
    [createDeliveryCustomization] and the [POST /api/graphql] dispatcher),
    with the properties of the specification stated over it.

    The JavaScript values the handlers touch are the request payload and
    the bodies handed back by the GraphQL client.  They are modelled as
    JSON-like data ([JsVal]) extended with [undefined].  Number values
    (IEEE doubles) are not part of the value model: a payload or an
    answer that holds a number is outside it, and nothing below speaks
    of one.  Strings are byte strings (the UTF-8 encoding of the
    JavaScript string). *)

From Stdlib Require Import String Ascii List Bool Arith NArith Lia.
Import ListNotations.
Local Open Scope list_scope.
Local Open Scope string_scope.

(** ** JavaScript values *)

#[warnings="-register-all"]
Inductive JsVal : Type :=
| JUndefined
| JNull
| JBool (b : bool)
| JStr (s : string)
| JArr (elems : list JsVal)
| JObj (props : list (string * JsVal)).

(** What a [throw] carries.  [GraphqlQueryError] is the client's query
    error with its [response] field; [TypeError] is what the runtime
    raises on a property read of [undefined]/[null] or on a call of a
    non-function; [OtherError] stands for every other exception class. *)
Inductive Exn : Type :=
| GraphqlQueryError (response : JsVal)
| TypeError
| OtherError (name : string).

(** [error instanceof GraphqlQueryError] *)
Definition instanceof_GraphqlQueryError (error : Exn) : bool :=
  match error with
  | GraphqlQueryError _ => true
  | _ => false
  end.

(** Completion of an expression: a value or a thrown exception. *)
Inductive Outcome (A : Type) : Type :=
| Return (a : A)
| Throw (e : Exn).
Arguments Return {A} a.
Arguments Throw {A} e.

Definition obind {A B} (o : Outcome A) (k : A -> Outcome B) : Outcome B :=
  match o with
  | Return a => k a
  | Throw e => Throw e
  end.

Declare Scope outcome_scope.
Delimit Scope outcome_scope with outcome.
Notation "x <- c ;; k" := (obind c (fun x => k))
  (at level 61, c at next level, right associativity) : outcome_scope.

(** The property names the handlers read with the dot operator.  None of
    them is an array index, [length], or a member of a built-in
    prototype, so a read on a primitive or an array yields
    [undefined]. *)
Module Key.
Inductive name : Type :=
| requestName | functionId | paymentMethod | cartTotal | zip | message
| body | data | paymentCustomizationCreate | deliveryCustomizationCreate
| userErrors | paymentCustomization | deliveryCustomization | id
| metafieldsSet.

Definition to_string (k : name) : string :=
  match k with
  | requestName => "requestName"
  | functionId => "functionId"
  | paymentMethod => "paymentMethod"
  | cartTotal => "cartTotal"
  | zip => "zip"
  | message => "message"
  | body => "body"
  | data => "data"
  | paymentCustomizationCreate => "paymentCustomizationCreate"
  | deliveryCustomizationCreate => "deliveryCustomizationCreate"
  | userErrors => "userErrors"
  | paymentCustomization => "paymentCustomization"
  | deliveryCustomization => "deliveryCustomization"
  | id => "id"
  | metafieldsSet => "metafieldsSet"
  end.
End Key.

(** Own-property lookup in an object.  A JavaScript object holds a key at
    most once; the first binding is the one read. *)
Fixpoint own_property (k : string) (props : list (string * JsVal)) : option JsVal :=
  match props with
  | [] => None
  | (k', v) :: rest => if String.eqb k k' then Some v else own_property k rest
  end.

Definition has_own_property (k : string) (props : list (string * JsVal)) : bool :=
  match own_property k props with
  | Some _ => true
  | None => false
  end.

(** [v.k] *)
Definition js_get (v : JsVal) (k : Key.name) : Outcome JsVal :=
  match v with
  | JUndefined | JNull => Throw TypeError
  | JBool _ | JStr _ | JArr _ => Return JUndefined
  | JObj props =>
      match own_property (Key.to_string k) props with
      | Some w => Return w
      | None => Return JUndefined
      end
  end.

(** [v?.k] *)
Definition js_get_optional (v : JsVal) (k : Key.name) : Outcome JsVal :=
  match v with
  | JUndefined | JNull => Return JUndefined
  | _ => js_get v k
  end.

(** [delete v.k] *)
Definition js_delete (v : JsVal) (k : Key.name) : JsVal :=
  match v with
  | JObj props =>
      JObj (filter (fun p => negb (String.eqb (Key.to_string k) (fst p))) props)
  | _ => v
  end.

(** ToBoolean *)
Definition truthy (v : JsVal) : bool :=
  match v with
  | JUndefined | JNull => false
  | JBool b => b
  | JStr s => negb (String.eqb s "")
  | JArr _ | JObj _ => true
  end.

(** ToString.  An array prints as its elements joined by commas
    ([Array.prototype.toString]); a plain object prints as
    ["[object Object]"] unless an own data property shadows
    [Object.prototype.toString], in which case no conversion method is
    callable and the runtime raises a TypeError. *)
Fixpoint ToString (v : JsVal) : Outcome string :=
  match v with
  | JUndefined => Return "undefined"
  | JNull => Return "null"
  | JBool true => Return "true"
  | JBool false => Return "false"
  | JStr s => Return s
  | JArr elems =>
      (fix join_commas (l : list JsVal) : Outcome string :=
         match l with
         | [] => Return ""
         | x :: rest =>
             (s <- match x with
                   | JUndefined | JNull => Return ""
                   | _ => ToString x
                   end ;;
              match rest with
              | [] => Return s
              | _ => r <- join_commas rest ;; Return (s ++ "," ++ r)
              end)%outcome
         end) elems
  | JObj props =>
      if has_own_property "toString" props then Throw TypeError
      else Return "[object Object]"
  end.

(** [Array.prototype.join]: [undefined] and [null] elements print as the
    empty string, the others through ToString. *)
Definition join_element (x : JsVal) : Outcome string :=
  match x with
  | JUndefined | JNull => Return ""
  | _ => ToString x
  end.

Fixpoint Array_join (sep : string) (l : list JsVal) : Outcome string :=
  match l with
  | [] => Return ""
  | x :: rest =>
      (s <- join_element x ;;
       match rest with
       | [] => Return s
       | _ => r <- Array_join sep rest ;; Return (s ++ sep ++ r)
       end)%outcome
  end.

(** [l.map(f)] for a callback that may throw. *)
Fixpoint Array_map (f : JsVal -> Outcome JsVal) (l : list JsVal) : Outcome (list JsVal) :=
  match l with
  | [] => Return []
  | x :: rest =>
      (y <- f x ;; ys <- Array_map f rest ;; Return (y :: ys))%outcome
  end.

(** ** JSON.stringify *)

Definition double_quote : string := String (ascii_of_nat 34) EmptyString.
Definition backslash : string := String (ascii_of_nat 92) EmptyString.

Definition hex_digit (n : nat) : string :=
  String (nth n (list_ascii_of_string "0123456789abcdef") "0"%char) EmptyString.

(** QuoteJSONString, one code unit at a time: the quote, the backslash
    and the control characters are escaped, everything else is copied. *)
Definition quote_char (c : ascii) : string :=
  let n := nat_of_ascii c in
  if Nat.eqb n 8 then backslash ++ "b"
  else if Nat.eqb n 9 then backslash ++ "t"
  else if Nat.eqb n 10 then backslash ++ "n"
  else if Nat.eqb n 12 then backslash ++ "f"
  else if Nat.eqb n 13 then backslash ++ "r"
  else if Nat.eqb n 34 then backslash ++ double_quote
  else if Nat.eqb n 92 then backslash ++ backslash
  else if Nat.ltb n 32 then
    backslash ++ "u00" ++ hex_digit (n / 16) ++ hex_digit (n mod 16)
  else String c EmptyString.

Fixpoint quote_chars (s : string) : string :=
  match s with
  | EmptyString => EmptyString
  | String c rest => quote_char c ++ quote_chars rest
  end.

Definition QuoteJSONString (s : string) : string :=
  double_quote ++ quote_chars s ++ double_quote.

(** SerializeJSONProperty.  [None] is the [undefined] result; inside an
    array it prints as [null], inside an object the property is left
    out.  The values are data, so no [toJSON] method is callable. *)
Fixpoint JSON_stringify (v : JsVal) : option string :=
  match v with
  | JUndefined => None
  | JNull => Some "null"
  | JBool true => Some "true"
  | JBool false => Some "false"
  | JStr s => Some (QuoteJSONString s)
  | JArr elems =>
      Some ("[" ++
            String.concat ","
              (map (fun x => match JSON_stringify x with
                             | Some s => s
                             | None => "null"
                             end) elems) ++
            "]")
  | JObj props =>
      Some ("{" ++
            String.concat ","
              (flat_map (fun p => match JSON_stringify (snd p) with
                                  | Some s => [QuoteJSONString (fst p) ++ ":" ++ s]
                                  | None => []
                                  end) props) ++
            "}")
  end.

(** [JSON.stringify(v)] as a JavaScript value. *)
Definition JSON_stringify_value (v : JsVal) : JsVal :=
  match JSON_stringify v with
  | Some s => JStr s
  | None => JUndefined
  end.

(** ** The handler monad: remote calls, the response object, exceptions *)

(** The GraphQL documents of the file.  The two metafield documents differ
    only in the literal namespace of the metafield. *)
Inductive Mutation : Type :=
| PaymentCustomizationCreate
| DeliveryCustomizationCreate
| MetafieldsSet (namespace : string).

(** The [data] argument of [graphqlClient.query]. *)
Record QueryData : Type := mkQuery {
  query : Mutation;
  variables : JsVal
}.

(** What [res.status(code).send(body)] puts on the wire; [send()] without
    an argument has no body. *)
Record Response : Type := mkResponse {
  status : nat;
  sent : option JsVal
}.

(** The part of the Express request the handlers read. *)
Record Request : Type := mkRequest {
  req_body : JsVal
}.

(** The remote client: the completion of a [query] call may depend on the
    calls issued before it. *)
Definition Client : Type := list QueryData -> QueryData -> Outcome JsVal.

(** The observable effects of a handler run: the queries issued, in order,
    and the responses sent on [res], in order. *)
Record World : Type := mkWorld {
  calls : list QueryData;
  responses : list Response
}.

Definition initial : World := mkWorld [] [].

Definition M (A : Type) : Type := World -> Outcome A * World.

Definition ret {A} (a : A) : M A := fun w => (Return a, w).

Definition throw {A} (e : Exn) : M A := fun w => (Throw e, w).

Definition bind {A B} (m : M A) (k : A -> M B) : M B :=
  fun w =>
    match m w with
    | (Return a, w') => k a w'
    | (Throw e, w') => (Throw e, w')
    end.

Definition lift {A} (o : Outcome A) : M A := fun w => (o, w).

(** [try { m } catch (error) { handler error }] *)
Definition try_catch {A} (m : M A) (handler : Exn -> M A) : M A :=
  fun w =>
    match m w with
    | (Return a, w') => (Return a, w')
    | (Throw e, w') => handler e w'
    end.

Declare Scope handler_scope.
Delimit Scope handler_scope with handler.
Notation "x <- c ;; k" := (bind c (fun x => k))
  (at level 61, c at next level, right associativity) : handler_scope.
Notation "c ;; k" := (bind c (fun _ => k))
  (at level 61, right associativity) : handler_scope.

(** [await graphqlClient.query({ data })] *)
Definition graphqlClient_query (graphqlClient : Client) (q : QueryData) : M JsVal :=
  fun w =>
    (graphqlClient (calls w) q,
     mkWorld ((calls w ++ [q])%list) (responses w)).

(** [res.status(code).send(body)] *)
Definition res_status_send (code : nat) (content : option JsVal) : M unit :=
  fun w =>
    (Return tt,
     mkWorld (calls w) ((responses w ++ [mkResponse code content])%list)).

(** How a [try] block ends when nothing is thrown: by a [return]
    statement inside it, or by running off its end. *)
Inductive Completion : Type :=
| Returned
| Normal.

Section Handlers.

(** The runtime's relational comparison of a string with the number 0:
    [StringToNumber_gt0 s] is the value of [s > 0], which converts [s]
    with the StringToNumber grammar.  It is only reached for an object
    that carries an own [length] property. *)
Variable StringToNumber_gt0 : string -> bool.

(** [w > 0] for a property value [w]. *)
Definition gt_zero (w : JsVal) : Outcome bool :=
  match w with
  | JUndefined | JNull => Return false
  | JBool b => Return b
  | _ => (s <- ToString w ;; Return (StringToNumber_gt0 s))%outcome
  end.

(** [v.length > 0] for a truthy [v]. *)
Definition length_gt_zero (v : JsVal) : Outcome bool :=
  match v with
  | JUndefined | JNull => Throw TypeError
  | JBool _ => Return false
  | JStr s => Return (negb (String.eqb s ""))
  | JArr elems => Return (negb (Nat.eqb (List.length elems) 0))
  | JObj props =>
      match own_property "length" props with
      | Some w => gt_zero w
      | None => Return false
      end
  end.

(** [userErrors.map((error) => error.message)]: only an array has a
    callable [map]. *)
Definition map_message (userErrors : JsVal) : Outcome (list JsVal) :=
  match userErrors with
  | JArr elems => Array_map (fun error => js_get error Key.message) elems
  | _ => Throw TypeError
  end.

(** The condition [userErrors && userErrors.length > 0]. *)
Definition has_errors (userErrors : JsVal) : Outcome bool :=
  if truthy userErrors then length_gt_zero userErrors else Return false.

(** [userErrors.map((error) => error.message).join(' ')] *)
Definition joined_message (userErrors : JsVal) : Outcome string :=
  (messages <- map_message userErrors ;; Array_join " " messages)%outcome.

(** [function handleUserError(userErrors, res)] *)
Definition handleUserError (userErrors : JsVal) : M bool :=
  (guard <- lift (has_errors userErrors) ;;
   if guard : bool then
     message <- lift (joined_message userErrors) ;;
     res_status_send 500 (Some (JObj [("error", JStr message)])) ;;
     ret true
   else
     ret false)%handler.

(** [res.status(200).send()] after the [try] statement, unless the
    handler has returned from inside it. *)
Definition after_try (c : Completion) : M unit :=
  match c with
  | Returned => ret tt
  | Normal => res_status_send 200 None
  end.

(** The [catch] clause of both handlers. *)
Definition catch_clause (error : Exn) : M Completion :=
  if negb (instanceof_GraphqlQueryError error) then throw error
  else
    match error with
    | GraphqlQueryError response =>
        (res_status_send 500 (Some (JObj [("error", response)])) ;;
         ret Returned)%handler
    | _ => throw error
    end.

(** The [data] object of the first [query] call of
    [createPaymentCustomization]: reading the payload and formatting
    the title can throw before anything is sent. *)
Definition paymentCustomizationCreate_data (payload : JsVal) : Outcome QueryData :=
  (functionId <- js_get payload Key.functionId ;;
   paymentMethod <- (v <- js_get payload Key.paymentMethod ;; ToString v) ;;
   cartTotal <- (v <- js_get payload Key.cartTotal ;; ToString v) ;;
   Return
     (mkQuery PaymentCustomizationCreate
        (JObj [("input",
                JObj [("functionId", functionId);
                      ("title",
                       JStr ("Hide " ++ paymentMethod ++
                             " if cart total is larger than " ++ cartTotal));
                      ("enabled", JBool true)])])))%outcome.

(** The [data] object of its second [query] call. *)
Definition payment_metafieldsSet_data (payload customizationId : JsVal) : Outcome QueryData :=
  (paymentMethodName <- js_get payload Key.paymentMethod ;;
   cartTotal <- js_get payload Key.cartTotal ;;
   Return
     (mkQuery (MetafieldsSet "$app:payment-customization")
        (JObj [("customizationId", customizationId);
               ("configurationValue",
                JSON_stringify_value
                  (JObj [("paymentMethodName", paymentMethodName);
                         ("cartTotal", cartTotal)]))])))%outcome.

(** [createResponse?.body?.data?.paymentCustomizationCreate] *)
Definition payment_createResult (createResponse : JsVal) : Outcome JsVal :=
  (b <- js_get_optional createResponse Key.body ;;
   d <- js_get_optional b Key.data ;;
   js_get_optional d Key.paymentCustomizationCreate)%outcome.

(** [metafieldResponse.body.data.metafieldsSet] *)
Definition metafieldsSet_result (metafieldResponse : JsVal) : Outcome JsVal :=
  (b <- js_get metafieldResponse Key.body ;;
   d <- js_get b Key.data ;;
   js_get d Key.metafieldsSet)%outcome.

(** [const createPaymentCustomization = async (graphqlClient, req, res) => ...] *)
Definition createPaymentCustomization (graphqlClient : Client) (req : Request) : M unit :=
  let payload := req_body req in
  (completion <-
     try_catch
       (createData <- lift (paymentCustomizationCreate_data payload) ;;
        createResponse <- graphqlClient_query graphqlClient createData ;;
        createResult <- lift (payment_createResult createResponse) ;;
        userErrors <- lift (js_get createResult Key.userErrors) ;;
        handled <- handleUserError userErrors ;;
        if handled : bool then ret Returned
        else
          customizationId <-
            lift (c <- js_get createResult Key.paymentCustomization ;;
                  js_get c Key.id)%outcome ;;
          metafieldData <- lift (payment_metafieldsSet_data payload customizationId) ;;
          metafieldResponse <- graphqlClient_query graphqlClient metafieldData ;;
          metafieldResult <- lift (metafieldsSet_result metafieldResponse) ;;
          handled <- handleUserError metafieldResult ;;
          if handled : bool then ret Returned else ret Normal)
       catch_clause ;;
   after_try completion)%handler.

(** The [data] object of the first [query] call of
    [createDeliveryCustomization]. *)
Definition deliveryCustomizationCreate_data (payload : JsVal) : Outcome QueryData :=
  (functionId <- js_get payload Key.functionId ;;
   zip <- (v <- js_get payload Key.zip ;; ToString v) ;;
   Return
     (mkQuery DeliveryCustomizationCreate
        (JObj [("input",
                JObj [("functionId", functionId);
                      ("title",
                       JStr ("Display message for postal code: " ++ zip));
                      ("enabled", JBool true)])])))%outcome.

(** The [data] object of its second [query] call. *)
Definition delivery_metafieldsSet_data (payload customizationId : JsVal) : Outcome QueryData :=
  (zip <- js_get payload Key.zip ;;
   message <- js_get payload Key.message ;;
   Return
     (mkQuery (MetafieldsSet "$app:delivery-customization")
        (JObj [("customizationId", customizationId);
               ("configurationValue",
                JSON_stringify_value
                  (JObj [("zip", zip); ("message", message)]))])))%outcome.

(** [createResponse.body.data.deliveryCustomizationCreate] *)
Definition delivery_createResult (createResponse : JsVal) : Outcome JsVal :=
  (b <- js_get createResponse Key.body ;;
   d <- js_get b Key.data ;;
   js_get d Key.deliveryCustomizationCreate)%outcome.

(** [const createDeliveryCustomization = async (graphqlClient, req, res) => ...] *)
Definition createDeliveryCustomization (graphqlClient : Client) (req : Request) : M unit :=
  let payload := req_body req in
  (completion <-
     try_catch
       (createData <- lift (deliveryCustomizationCreate_data payload) ;;
        createResponse <- graphqlClient_query graphqlClient createData ;;
        createResult <- lift (delivery_createResult createResponse) ;;
        userErrors <- lift (js_get createResult Key.userErrors) ;;
        handled <- handleUserError userErrors ;;
        if handled : bool then ret Returned
        else
          customizationId <-
            lift (c <- js_get createResult Key.deliveryCustomization ;;
                  js_get c Key.id)%outcome ;;
          metafieldData <- lift (delivery_metafieldsSet_data payload customizationId) ;;
          metafieldResponse <- graphqlClient_query graphqlClient metafieldData ;;
          metafieldResult <- lift (metafieldsSet_result metafieldResponse) ;;
          handled <- handleUserError metafieldResult ;;
          if handled : bool then ret Returned else ret Normal)
       catch_clause ;;
   after_try completion)%handler.

(** [app.post('/api/graphql', async (req, res) => ...)], given the client
    constructed for the session.  [requestBody] aliases [req.body], so
    the handlers see the body without its [requestName]. *)
Definition post_api_graphql (graphqlClient : Client) (req : Request) : M unit :=
  let requestBody := req_body req in
  (requestName <- lift (js_get (req_body req) Key.requestName) ;;
   let req := mkRequest (js_delete requestBody Key.requestName) in
   match requestName with
   | JStr name =>
       if String.eqb name "createDeliveryCustomization" then
         createDeliveryCustomization graphqlClient req
       else if String.eqb name "createPaymentCustomization" then
         createPaymentCustomization graphqlClient req
       else ret tt
   | _ => ret tt
   end)%handler.

End Handlers.


(** ** The two flows, by kind *)

Inductive Kind : Type :=
| Delivery
| Payment.

Definition createCustomization (StringToNumber_gt0 : string -> bool) (kind : Kind)
  : Client -> Request -> M unit :=
  match kind with
  | Delivery => createDeliveryCustomization StringToNumber_gt0
  | Payment => createPaymentCustomization StringToNumber_gt0
  end.

Definition create_data (kind : Kind) : JsVal -> Outcome QueryData :=
  match kind with
  | Delivery => deliveryCustomizationCreate_data
  | Payment => paymentCustomizationCreate_data
  end.

Definition metafieldsSet_data (kind : Kind) : JsVal -> JsVal -> Outcome QueryData :=
  match kind with
  | Delivery => delivery_metafieldsSet_data
  | Payment => payment_metafieldsSet_data
  end.

Definition createResult (kind : Kind) : JsVal -> Outcome JsVal :=
  match kind with
  | Delivery => delivery_createResult
  | Payment => payment_createResult
  end.

(** The field of the create result that holds the created record. *)
Definition customization_key (kind : Kind) : Key.name :=
  match kind with
  | Delivery => Key.deliveryCustomization
  | Payment => Key.paymentCustomization
  end.

(** [createResult.<kind>Customization.id] *)
Definition customization_id (kind : Kind) (result : JsVal) : Outcome JsVal :=
  (c <- js_get result (customization_key kind) ;; js_get c Key.id)%outcome.

Definition is_MetafieldsSet (q : QueryData) : bool :=
  match query q with
  | MetafieldsSet _ => true
  | _ => false
  end.

(** ** Remote answers *)

(** An entry of the [userErrors { message }] selection. *)
Definition user_error (msg : string) : JsVal := JObj [("message", JStr msg)].

(** A user-error list of the remote API carrying the given messages. *)
Definition user_errors (msgs : list string) : JsVal := JArr (map user_error msgs).

(** The result object of a metafield-set mutation. *)
Definition metafieldsSet_payload (metafields : JsVal) (msgs : list string) : JsVal :=
  JObj [("metafields", metafields); ("userErrors", user_errors msgs)].

(** The result object of a create mutation. *)
Definition create_payload (kind : Kind) (record : JsVal) (msgs : list string) : JsVal :=
  JObj [(Key.to_string (customization_key kind), record);
        ("userErrors", user_errors msgs)].

(** A response whose [body.data] holds one mutation result. *)
Definition response_with (field : string) (result : JsVal) : JsVal :=
  JObj [("body", JObj [("data", JObj [(field, result)])])].

(** A 500 response with a single [error] field. *)
Definition error_response (detail : JsVal) : Response :=
  mkResponse 500 (Some (JObj [("error", detail)])).

(** A scripted client: one completion for the create mutation of each
    kind and one for the metafield-set mutation. *)
Definition scripted_client (onCreate : Kind -> Outcome JsVal)
    (onMetafieldsSet : Outcome JsVal) : Client :=
  fun _ q =>
    match query q with
    | DeliveryCustomizationCreate => onCreate Delivery
    | PaymentCustomizationCreate => onCreate Payment
    | MetafieldsSet _ => onMetafieldsSet
    end.

Definition create_response (kind : Kind) (record : JsVal) (msgs : list string) : JsVal :=
  match kind with
  | Delivery => response_with "deliveryCustomizationCreate" (create_payload kind record msgs)
  | Payment => response_with "paymentCustomizationCreate" (create_payload kind record msgs)
  end.

Definition created_record : JsVal := JObj [("id", JStr "gid://shopify/Customization/1")].

(** The create mutation is rejected with the given user errors. *)
Definition rejecting_client (msgs : list string) : Client :=
  scripted_client (fun kind => Return (create_response kind JNull msgs))
    (Throw (OtherError "unexpected call")).

(** Both mutations succeed. *)
Definition accepting_client : Client :=
  scripted_client (fun kind => Return (create_response kind created_record []))
    (Return (response_with "metafieldsSet"
               (metafieldsSet_payload
                  (JArr [JObj [("id", JStr "gid://shopify/Metafield/1")]]) []))).

(** The create mutation succeeds and the metafield-set mutation reports
    the given user errors. *)
Definition metafield_rejecting_client (msgs : list string) : Client :=
  scripted_client (fun kind => Return (create_response kind created_record []))
    (Return (response_with "metafieldsSet" (metafieldsSet_payload JNull msgs))).

(** The create mutation reports no user error and no record. *)
Definition recordless_client : Client :=
  scripted_client (fun kind => Return (create_response kind JNull []))
    (Throw (OtherError "unexpected call")).

(** Every call throws the given exception. *)
Definition throwing_client (e : Exn) : Client :=
  scripted_client (fun _ => Throw e) (Throw e).

Definition payment_request : Request :=
  mkRequest (JObj [("functionId", JStr "fn-1");
                   ("paymentMethod", JStr "Cash on Delivery");
                   ("cartTotal", JStr "100")]).

Definition delivery_request : Request :=
  mkRequest (JObj [("functionId", JStr "fn-2");
                   ("zip", JStr "90210");
                   ("message", JStr "No delivery on Sundays")]).

Definition request_of (kind : Kind) : Request :=
  match kind with
  | Delivery => delivery_request
  | Payment => payment_request
  end.

(** The create query each handler issues for its request above. *)
Definition payment_create_query : QueryData :=
  mkQuery PaymentCustomizationCreate
    (JObj [("input",
            JObj [("functionId", JStr "fn-1");
                  ("title",
                   JStr "Hide Cash on Delivery if cart total is larger than 100");
                  ("enabled", JBool true)])]).

Definition delivery_create_query : QueryData :=
  mkQuery DeliveryCustomizationCreate
    (JObj [("input",
            JObj [("functionId", JStr "fn-2");
                  ("title", JStr "Display message for postal code: 90210");
                  ("enabled", JBool true)])]).

(** The metafield-set query each handler issues for its request above
    once the record [created_record] exists. *)
Definition payment_metafield_query : QueryData :=
  mkQuery (MetafieldsSet "$app:payment-customization")
    (JObj [("customizationId", JStr "gid://shopify/Customization/1");
           ("configurationValue",
            JSON_stringify_value
              (JObj [("paymentMethodName", JStr "Cash on Delivery");
                     ("cartTotal", JStr "100")]))]).

Definition delivery_metafield_query : QueryData :=
  mkQuery (MetafieldsSet "$app:delivery-customization")
    (JObj [("customizationId", JStr "gid://shopify/Customization/1");
           ("configurationValue",
            JSON_stringify_value
              (JObj [("zip", JStr "90210");
                     ("message", JStr "No delivery on Sundays")]))]).

(** A request the dispatcher does not know. *)
Definition unknown_request : Request :=
  mkRequest (JObj [("requestName", JStr "unknown"); ("functionId", JStr "fn-3")]).

(** The runtime comparison used in the concrete runs; no run below
    reaches it. *)
Definition no_string_is_positive : string -> bool := fun _ => false.

(** ** Reading JSON back

    The handlers only serialize.  What it means to deserialize the
    configuration value is fixed by [deserialize] below, which is no
    part of the source: a reader for the JSON texts that the value
    model of this file can hold.  On a text without number literals
    and without [\u] escapes above U+007F it gives the value that
    [JSON.parse] gives, the own keys of every object in the runtime's
    order.  Every other text is not read ([None]), be it no JSON text
    at all or a JSON text outside that fragment. *)








(** Strips a literal prefix. *)
Fixpoint expect (literal s : string) : option string :=
  match literal, s with
  | EmptyString, _ => Some s
  | String a l, String b r => if Ascii.eqb a b then expect l r else None
  | String _ _, EmptyString => None
  end.










Definition literal (text : string) (v : JsVal) (s : string) : option (JsVal * string) :=
  match expect text s with
  | Some rest => Some (v, rest)
  | None => None
  end.





















(** ** The paths of a run *)

(** The create call was issued and answered with a readable result:
    [createData] is the query, [result] the create result and
    [userErrors] its user-error field. *)
Definition create_answered (kind : Kind) (graphqlClient : Client) (req : Request)
    (createData : QueryData) (result userErrors : JsVal) : Prop :=
  create_data kind (req_body req) = Return createData
  /\ exists createResponse,
       graphqlClient [] createData = Return createResponse
       /\ createResult kind createResponse = Return result
       /\ js_get result Key.userErrors = Return userErrors.

(** The metafield-set call [metafieldData] was issued: the create call
    was answered, its user-error check found nothing, and the query was
    built for the id of the created record. *)
Definition configure_issued (StringToNumber_gt0 : string -> bool) (kind : Kind)
    (graphqlClient : Client) (req : Request)
    (createData metafieldData : QueryData) : Prop :=
  exists result userErrors customizationId,
    create_answered kind graphqlClient req createData result userErrors
    /\ has_errors StringToNumber_gt0 userErrors = Return false
    /\ customization_id kind result = Return customizationId
    /\ metafieldsSet_data kind (req_body req) customizationId = Return metafieldData.

(** The user-error check of [handleUserError] throws: in its condition,
    or while it builds the message. *)
Definition check_throws (StringToNumber_gt0 : string -> bool) (v : JsVal) : Prop :=
  has_errors StringToNumber_gt0 v = Throw TypeError
  \/ (has_errors StringToNumber_gt0 v = Return true
      /\ joined_message v = Throw TypeError).

(** The ways a handler run can go, each with its completion and the
    calls and responses it leaves. *)
Inductive Run (StringToNumber_gt0 : string -> bool) (kind : Kind)
    (graphqlClient : Client) (req : Request) : Outcome unit -> World -> Prop :=
| run_payload_unreadable :
    create_data kind (req_body req) = Throw TypeError ->
    Run StringToNumber_gt0 kind graphqlClient req (Throw TypeError) initial
| run_create_throws createData e :
    create_data kind (req_body req) = Return createData ->
    graphqlClient [] createData = Throw e ->
    instanceof_GraphqlQueryError e = false ->
    Run StringToNumber_gt0 kind graphqlClient req
      (Throw e) (mkWorld [createData] [])
| run_create_query_error createData response :
    create_data kind (req_body req) = Return createData ->
    graphqlClient [] createData = Throw (GraphqlQueryError response) ->
    Run StringToNumber_gt0 kind graphqlClient req
      (Return tt) (mkWorld [createData] [error_response response])
| run_create_unreadable createData createResponse :
    create_data kind (req_body req) = Return createData ->
    graphqlClient [] createData = Return createResponse ->
    (r <- createResult kind createResponse ;; js_get r Key.userErrors)%outcome
    = Throw TypeError ->
    Run StringToNumber_gt0 kind graphqlClient req
      (Throw TypeError) (mkWorld [createData] [])
| run_create_check_throws createData result userErrors :
    create_answered kind graphqlClient req createData result userErrors ->
    check_throws StringToNumber_gt0 userErrors ->
    Run StringToNumber_gt0 kind graphqlClient req
      (Throw TypeError) (mkWorld [createData] [])
| run_create_rejected createData result userErrors message :
    create_answered kind graphqlClient req createData result userErrors ->
    has_errors StringToNumber_gt0 userErrors = Return true ->
    joined_message userErrors = Return message ->
    Run StringToNumber_gt0 kind graphqlClient req
      (Return tt) (mkWorld [createData] [error_response (JStr message)])
| run_record_unreadable createData result userErrors :
    create_answered kind graphqlClient req createData result userErrors ->
    has_errors StringToNumber_gt0 userErrors = Return false ->
    customization_id kind result = Throw TypeError ->
    Run StringToNumber_gt0 kind graphqlClient req
      (Throw TypeError) (mkWorld [createData] [])
| run_configure_throws createData metafieldData e :
    configure_issued StringToNumber_gt0 kind graphqlClient req createData metafieldData ->
    graphqlClient [createData] metafieldData = Throw e ->
    instanceof_GraphqlQueryError e = false ->
    Run StringToNumber_gt0 kind graphqlClient req
      (Throw e) (mkWorld [createData; metafieldData] [])
| run_configure_query_error createData metafieldData response :
    configure_issued StringToNumber_gt0 kind graphqlClient req createData metafieldData ->
    graphqlClient [createData] metafieldData = Throw (GraphqlQueryError response) ->
    Run StringToNumber_gt0 kind graphqlClient req
      (Return tt) (mkWorld [createData; metafieldData] [error_response response])
| run_configure_unreadable createData metafieldData metafieldResponse :
    configure_issued StringToNumber_gt0 kind graphqlClient req createData metafieldData ->
    graphqlClient [createData] metafieldData = Return metafieldResponse ->
    metafieldsSet_result metafieldResponse = Throw TypeError ->
    Run StringToNumber_gt0 kind graphqlClient req
      (Throw TypeError) (mkWorld [createData; metafieldData] [])
| run_configure_check_throws createData metafieldData metafieldResponse metafieldResult :
    configure_issued StringToNumber_gt0 kind graphqlClient req createData metafieldData ->
    graphqlClient [createData] metafieldData = Return metafieldResponse ->
    metafieldsSet_result metafieldResponse = Return metafieldResult ->
    check_throws StringToNumber_gt0 metafieldResult ->
    Run StringToNumber_gt0 kind graphqlClient req
      (Throw TypeError) (mkWorld [createData; metafieldData] [])
| run_configure_rejected createData metafieldData metafieldResponse metafieldResult message :
    configure_issued StringToNumber_gt0 kind graphqlClient req createData metafieldData ->
    graphqlClient [createData] metafieldData = Return metafieldResponse ->
    metafieldsSet_result metafieldResponse = Return metafieldResult ->
    has_errors StringToNumber_gt0 metafieldResult = Return true ->
    joined_message metafieldResult = Return message ->
    Run StringToNumber_gt0 kind graphqlClient req
      (Return tt)
      (mkWorld [createData; metafieldData] [error_response (JStr message)])
| run_configured createData metafieldData metafieldResponse metafieldResult :
    configure_issued StringToNumber_gt0 kind graphqlClient req createData metafieldData ->
    graphqlClient [createData] metafieldData = Return metafieldResponse ->
    metafieldsSet_result metafieldResponse = Return metafieldResult ->
    has_errors StringToNumber_gt0 metafieldResult = Return false ->
    Run StringToNumber_gt0 kind graphqlClient req
      (Return tt) (mkWorld [createData; metafieldData] [mkResponse 200 None]).

(** ** More requests, answers and clients *)

(** The [requestName] that selects each handler. *)
Definition request_name (kind : Kind) : string :=
  match kind with
  | Delivery => "createDeliveryCustomization"
  | Payment => "createPaymentCustomization"
  end.

(** The delivery request as it reaches the dispatcher. *)
Definition named_delivery_request : Request :=
  mkRequest (JObj [("requestName", JStr "createDeliveryCustomization");
                   ("functionId", JStr "fn-2");
                   ("zip", JStr "90210");
                   ("message", JStr "No delivery on Sundays")]).

(** A user-error entry that may lack its [message]. *)
Definition user_error_entry (msg : option string) : JsVal :=
  match msg with
  | Some s => user_error s
  | None => JObj []
  end.

(** What such an entry adds to the joined message. *)
Definition message_text (msg : option string) : string :=
  match msg with
  | Some s => s
  | None => ""
  end.

(** The create mutation succeeds and the metafield-set call throws. *)
Definition configure_throwing_client (e : Exn) : Client :=
  scripted_client (fun kind => Return (create_response kind created_record []))
    (Throw e).

(** The create call is answered with an object that has no [body]. *)
Definition bodyless_client : Client :=
  scripted_client (fun _ => Return (JObj [])) (Throw (OtherError "unexpected call")).

(** The create mutation succeeds and the metafield-set mutation is
    answered with a [null] result. *)
Definition null_result_client : Client :=
  scripted_client (fun kind => Return (create_response kind created_record []))
    (Return (response_with "metafieldsSet" JNull)).

(** ** Properties *)

(** An array prints as its elements joined by commas. *)
Lemma ToString_array (elems : list JsVal) :
  ToString (JArr elems) = Array_join "," elems.
Proof.
  cbn [ToString].
  induction elems as [|x rest IH]; [reflexivity|].
  cbn [Array_join]. unfold join_element. rewrite <- IH. reflexivity.
Qed.

(** Joining strings is [String.concat]. *)
Lemma Array_join_strings (sep : string) (l : list string) :
  Array_join sep (map JStr l) = Return (String.concat sep l).
Proof.
  induction l as [|x [|y rest] IH]; try reflexivity.
  change (Array_join sep (map JStr (x :: y :: rest)))
    with (r <- Array_join sep (map JStr (y :: rest)) ;; Return (x ++ sep ++ r))%outcome.
  rewrite IH. reflexivity.
Qed.

Lemma Array_map_message_user_errors (msgs : list string) :
  Array_map (fun error => js_get error Key.message) (map user_error msgs)
  = Return (map JStr msgs).
Proof.
  induction msgs as [|m rest IH]; [reflexivity|].
  simpl. simpl in IH. rewrite IH. reflexivity.
Qed.

Lemma joined_message_user_errors (msgs : list string) :
  joined_message (user_errors msgs) = Return (String.concat " " msgs).
Proof.
  unfold joined_message, user_errors, map_message.
  rewrite Array_map_message_user_errors. cbn [obind].
  apply Array_join_strings.
Qed.

(** The create queries are never the metafield-set mutation. *)
Lemma create_data_not_MetafieldsSet (kind : Kind) (payload : JsVal) (q : QueryData) :
  create_data kind payload = Return q -> is_MetafieldsSet q = false.
Proof.
  intros Hdata.
  destruct kind; cbn [create_data] in Hdata;
    unfold deliveryCustomizationCreate_data, paymentCustomizationCreate_data in Hdata;
    repeat match type of Hdata with
           | obind ?o _ = _ => destruct o; cbn [obind] in Hdata; try discriminate
           end;
    injection Hdata as <-; reflexivity.
Qed.

(** Unfolds a handler down to the completions of its steps. *)
Ltac unfold_handler :=
  unfold createCustomization, createDeliveryCustomization,
    createPaymentCustomization, bind, try_catch, lift, graphqlClient_query.

(** *** Serializing and reading back *)

Lemma JsVal_nested_ind (P : JsVal -> Prop) :
  P JUndefined -> P JNull -> (forall b, P (JBool b)) -> (forall s, P (JStr s)) ->
  (forall elems, Forall P elems -> P (JArr elems)) ->
  (forall props, Forall (fun p => P (snd p)) props -> P (JObj props)) ->
  forall v, P v.
Proof.
  intros Hu Hn Hb Hs Ha Ho.
  fix IH 1. intros [| |b|s|elems|props].
  - exact Hu.
  - exact Hn.
  - apply Hb.
  - apply Hs.
  - apply Ha. induction elems as [|x rest IHl]; constructor; [apply IH | exact IHl].
  - apply Ho. induction props as [|[k x] rest IHl]; constructor; [apply IH | exact IHl].
Qed.



























(** *** The handlers *)

Section Theorems.

(** The runtime's string-to-number comparison is arbitrary throughout. *)
Variable gt0 : string -> bool.

(** [handleUserError] when its condition is false. *)
Lemma handleUserError_no_errors (v : JsVal) (w : World) :
  has_errors gt0 v = Return false ->
  handleUserError gt0 v w = (Return false, w).
Proof.
  intros H. unfold handleUserError, bind, lift. rewrite H. reflexivity.
Qed.

(** What [handleUserError] does, by the completions of its condition
    and of the message it builds. *)
Lemma handleUserError_unfold (v : JsVal) (w : World) :
  handleUserError gt0 v w
  = match has_errors gt0 v with
    | Return true =>
        match joined_message v with
        | Return s =>
            (Return true,
             mkWorld (calls w) ((responses w ++ [error_response (JStr s)])%list))
        | Throw e => (Throw e, w)
        end
    | Return false => (Return false, w)
    | Throw e => (Throw e, w)
    end.
Proof.
  unfold handleUserError, bind, lift.
  destruct (has_errors gt0 v) as [[|]|e]; [|reflexivity..].
  destruct (joined_message v); reflexivity.
Qed.

(** Only an array whose elements are neither [null] nor [undefined] has
    a joined message. *)
Lemma joined_message_array (v : JsVal) (s : string) :
  joined_message v = Return s ->
  exists elems,
    v = JArr elems /\ Forall (fun e => e <> JUndefined /\ e <> JNull) elems.
Proof.
  unfold joined_message, map_message.
  destruct v as [| |b|t|elems|props]; try discriminate.
  intros H. exists elems. split; [reflexivity|].
  destruct (Array_map (fun error => js_get error Key.message) elems)
    as [ms|e] eqn:Hmap; [clear H|discriminate].
  revert ms Hmap.
  induction elems as [|x rest IH]; intros ms Hmap; constructor.
  - split; intros ->; discriminate.
  - cbn [Array_map] in Hmap.
    destruct (js_get x Key.message); [|discriminate]. cbn [obind] in Hmap.
    destruct (Array_map (fun error => js_get error Key.message) rest) as [ms'|e];
      [|discriminate].
    exact (IH ms' eq_refl).
Qed.

(** [handleUserError] issues no call. *)
Lemma handleUserError_calls (v : JsVal) (w : World) :
  calls (snd (handleUserError gt0 v w)) = calls w.
Proof.
  unfold handleUserError, bind, lift, res_status_send, ret.
  destruct (has_errors gt0 v) as [[|]|e]; try reflexivity.
  destruct (joined_message v); reflexivity.
Qed.

(** Neither does what follows the [try] statement. *)
Lemma calls_after_try (m : M Completion) (w : World) :
  calls (snd (bind m after_try w)) = calls (snd (m w)).
Proof.
  unfold bind. destruct (m w) as [[[|]|e] w']; reflexivity.
Qed.

(** Neither does the [catch] clause. *)
Lemma calls_try_catch (m : M Completion) (w : World) :
  calls (snd (try_catch m catch_clause w)) = calls (snd (m w)).
Proof.
  unfold try_catch. destruct (m w) as [[c|[r| |n]] w']; reflexivity.
Qed.

(** The calls of a run: none, the create call alone, or the create call
    followed by the metafield-set call built from the payload. *)
Lemma handler_calls (kind : Kind) (graphqlClient : Client) (req : Request) :
  let issued := calls (snd (createCustomization gt0 kind graphqlClient req initial)) in
  issued = [] \/
  exists createData,
    create_data kind (req_body req) = Return createData /\
    (issued = [createData] \/
     exists customizationId metafieldData,
       metafieldsSet_data kind (req_body req) customizationId = Return metafieldData /\
       issued = [createData; metafieldData]).
Proof.
  destruct kind; cbn [createCustomization create_data metafieldsSet_data];
    unfold createDeliveryCustomization, createPaymentCustomization;
    rewrite calls_after_try, calls_try_catch;
    unfold bind, lift, graphqlClient_query; cbn [calls responses initial app].
  - destruct (deliveryCustomizationCreate_data (req_body req)) as [q1|e];
      [right; exists q1; split; [reflexivity|] | left; reflexivity].
    destruct (graphqlClient [] q1) as [r1|e]; [|left; reflexivity].
    destruct (delivery_createResult r1) as [cr|e]; [|left; reflexivity].
    destruct (js_get cr Key.userErrors) as [ue|e]; [|left; reflexivity].
    pose proof (handleUserError_calls ue (mkWorld [q1] [])) as Hc.
    destruct (handleUserError gt0 ue (mkWorld [q1] [])) as [[[|]|e] w1];
      cbn [snd calls] in Hc; unfold ret; cbn [snd]; try (left; exact Hc).
    destruct (c <- js_get cr Key.deliveryCustomization ;; js_get c Key.id)%outcome
      as [cid|e]; [|left; exact Hc].
    destruct (delivery_metafieldsSet_data (req_body req) cid) as [q2|e] eqn:Hq2;
      [|left; exact Hc].
    right. exists cid, q2. split; [exact Hq2|]. rewrite Hc. cbn [app].
    destruct (graphqlClient [q1] q2) as [r2|e]; [|reflexivity].
    destruct (metafieldsSet_result r2) as [mr|e]; [|reflexivity].
    pose proof (handleUserError_calls mr (mkWorld [q1; q2] (responses w1))) as Hc2.
    destruct (handleUserError gt0 mr (mkWorld [q1; q2] (responses w1)))
      as [[[|]|e] w2]; exact Hc2.
  - destruct (paymentCustomizationCreate_data (req_body req)) as [q1|e];
      [right; exists q1; split; [reflexivity|] | left; reflexivity].
    destruct (graphqlClient [] q1) as [r1|e]; [|left; reflexivity].
    destruct (payment_createResult r1) as [cr|e]; [|left; reflexivity].
    destruct (js_get cr Key.userErrors) as [ue|e]; [|left; reflexivity].
    pose proof (handleUserError_calls ue (mkWorld [q1] [])) as Hc.
    destruct (handleUserError gt0 ue (mkWorld [q1] [])) as [[[|]|e] w1];
      cbn [snd calls] in Hc; unfold ret; cbn [snd]; try (left; exact Hc).
    destruct (c <- js_get cr Key.paymentCustomization ;; js_get c Key.id)%outcome
      as [cid|e]; [|left; exact Hc].
    destruct (payment_metafieldsSet_data (req_body req) cid) as [q2|e] eqn:Hq2;
      [|left; exact Hc].
    right. exists cid, q2. split; [exact Hq2|]. rewrite Hc. cbn [app].
    destruct (graphqlClient [q1] q2) as [r2|e]; [|reflexivity].
    destruct (metafieldsSet_result r2) as [mr|e]; [|reflexivity].
    pose proof (handleUserError_calls mr (mkWorld [q1; q2] (responses w1))) as Hc2.
    destruct (handleUserError gt0 mr (mkWorld [q1; q2] (responses w1)))
      as [[[|]|e] w2]; exact Hc2.
Qed.

(** C1. When the create mutation answers with a non-empty user-error
    list, either handler responds 500 with the error messages joined by
    single spaces, and the create call is the only call issued: the
    metafield-set mutation is never sent. *)
Theorem create_user_errors_stop
    (kind : Kind) (graphqlClient : Client) (req : Request)
    (createData : QueryData) (createResponse result : JsVal)
    (msgs : list string) :
  create_data kind (req_body req) = Return createData ->
  graphqlClient [] createData = Return createResponse ->
  createResult kind createResponse = Return result ->
  js_get result Key.userErrors = Return (user_errors msgs) ->
  msgs <> [] ->
  createCustomization gt0 kind graphqlClient req initial
  = (Return tt,
     mkWorld [createData] [error_response (JStr (String.concat " " msgs))])
  /\ is_MetafieldsSet createData = false.
Proof.
  intros Hdata Hcall Hresult Herrors Hne.
  split; [|exact (create_data_not_MetafieldsSet _ _ _ Hdata)].
  assert (Hguard : has_errors gt0 (user_errors msgs) = Return true)
    by (destruct msgs; [contradiction | reflexivity]).
  destruct kind; cbn [create_data createResult] in *; unfold_handler;
    rewrite Hdata; cbn [calls responses initial app];
    rewrite Hcall, Hresult, Herrors;
    unfold handleUserError, bind, lift;
    rewrite Hguard, joined_message_user_errors; reflexivity.
Qed.

(** C2.  With a create mutation that succeeds and a metafield-set
    mutation that reports two user errors, each handler issues both
    mutations and answers 200 with an empty body. *)
Theorem metafield_user_errors_answered_200 (kind : Kind) :
  let run :=
    createCustomization gt0 kind
      (metafield_rejecting_client ["A invalid"; "B required"])
      (request_of kind) initial in
  fst run = Return tt
  /\ map is_MetafieldsSet (calls (snd run)) = [false; true]
  /\ responses (snd run) = [mkResponse 200 None].
Proof.
  destruct kind; repeat split; reflexivity.
Qed.

(** C3.  The second check of the delivery handler is given the whole
    metafield-set result, as the payment handler's is: whatever user
    errors that result carries, [handleUserError] finds no error in it
    and the delivery handler answers 200. *)
Theorem delivery_check_reads_whole_result
    (metafields : JsVal) (msgs : list string) (w : World) :
  handleUserError gt0 (metafieldsSet_payload metafields msgs) w = (Return false, w)
  /\ fst (createDeliveryCustomization gt0 (metafield_rejecting_client msgs)
            delivery_request initial) = Return tt
  /\ responses (snd (createDeliveryCustomization gt0 (metafield_rejecting_client msgs)
                       delivery_request initial))
     = [mkResponse 200 None]
  /\ responses (snd (createPaymentCustomization gt0 (metafield_rejecting_client msgs)
                       payment_request initial))
     = [mkResponse 200 None].
Proof.
  repeat split; reflexivity.
Qed.

(** C4. When the create mutation answers with an empty user-error list
    and the metafield-set mutation issued for the created record
    succeeds, either handler responds 200 with an empty body. *)
Theorem both_succeed_200
    (kind : Kind) (graphqlClient : Client) (req : Request)
    (createData metafieldData : QueryData)
    (createResponse result customizationId metafieldResponse metafields : JsVal) :
  create_data kind (req_body req) = Return createData ->
  graphqlClient [] createData = Return createResponse ->
  createResult kind createResponse = Return result ->
  js_get result Key.userErrors = Return (user_errors []) ->
  customization_id kind result = Return customizationId ->
  metafieldsSet_data kind (req_body req) customizationId = Return metafieldData ->
  graphqlClient [createData] metafieldData = Return metafieldResponse ->
  metafieldsSet_result metafieldResponse
  = Return (metafieldsSet_payload metafields []) ->
  createCustomization gt0 kind graphqlClient req initial
  = (Return tt, mkWorld [createData; metafieldData] [mkResponse 200 None]).
Proof.
  intros Hdata Hcall Hresult Herrors Hid Hmeta Hcall2 Hresult2.
  destruct kind; cbn [create_data createResult metafieldsSet_data] in *;
    unfold customization_id in Hid; cbn [customization_key] in Hid;
    unfold_handler;
    rewrite Hdata; cbn [calls responses initial app];
    rewrite Hcall, Hresult, Herrors;
    rewrite handleUserError_no_errors by reflexivity;
    rewrite Hid, Hmeta; cbn [calls responses app];
    rewrite Hcall2, Hresult2;
    rewrite handleUserError_no_errors by reflexivity;
    reflexivity.
Qed.

(** C6. When the client throws during the create call: a
    [GraphqlQueryError] is answered with 500 and the exception's
    [response], with no further call; any other exception leaves the
    handler as it came, with nothing sent and no further call. *)
Theorem create_call_throws
    (kind : Kind) (graphqlClient : Client) (req : Request)
    (createData : QueryData) (error : Exn) :
  create_data kind (req_body req) = Return createData ->
  graphqlClient [] createData = Throw error ->
  createCustomization gt0 kind graphqlClient req initial
  = match error with
    | GraphqlQueryError response =>
        (Return tt, mkWorld [createData] [error_response response])
    | _ => (Throw error, mkWorld [createData] [])
    end.
Proof.
  intros Hdata Hcall.
  destruct kind; cbn [create_data] in *; unfold_handler;
    rewrite Hdata; cbn [calls responses initial app];
    rewrite Hcall; destruct error; reflexivity.
Qed.

(** C7. A request whose [requestName] is neither of the two known names
    makes the dispatcher return normally with no call issued and no
    response sent. *)
Theorem unknown_requestName_is_ignored
    (graphqlClient : Client) (req : Request) (requestName : JsVal) :
  js_get (req_body req) Key.requestName = Return requestName ->
  requestName <> JStr "createDeliveryCustomization" ->
  requestName <> JStr "createPaymentCustomization" ->
  post_api_graphql gt0 graphqlClient req initial = (Return tt, initial).
Proof.
  intros Hname Hd Hp.
  unfold post_api_graphql, bind, lift. rewrite Hname.
  destruct requestName as [| |b|name|elems|props]; try reflexivity.
  destruct (String.eqb_spec name "createDeliveryCustomization") as [->|_];
    [contradiction|].
  destruct (String.eqb_spec name "createPaymentCustomization") as [->|_];
    [contradiction|].
  reflexivity.
Qed.

(** C8. For a non-empty list of user errors, [handleUserError] sends one
    500 response whose error message is the messages joined by single
    spaces, in list order, and returns [true]. *)
Theorem user_errors_joined_by_spaces (msgs : list string) (w : World) :
  msgs <> [] ->
  handleUserError gt0 (user_errors msgs) w
  = (Return true,
     mkWorld (calls w)
       ((responses w ++
         [mkResponse 500
            (Some (JObj [("error", JStr (String.concat " " msgs))]))])%list)).
Proof.
  intros Hne. unfold handleUserError, bind, lift.
  rewrite joined_message_user_errors.
  destruct msgs as [|m rest]; [contradiction|]. reflexivity.
Qed.

(** C9, as amended.  [handleUserError] returns [true] exactly for a
    non-empty array whose messages can be mapped and joined (none of its
    elements is [null] or [undefined]), and then it has sent one 500
    response with the joined message; it returns [false] exactly when
    its condition is false, and then it has sent nothing, which is the
    case for [undefined], for an empty array and for a plain object
    with no own [length], such as a metafield-set result. *)
Theorem handleUserError_outcomes (v : JsVal) (w w' : World) :
  (handleUserError gt0 v w = (Return true, w') <->
   exists elems s,
     v = JArr elems /\ elems <> [] /\
     Forall (fun e => e <> JUndefined /\ e <> JNull) elems /\
     joined_message v = Return s /\
     w' = mkWorld (calls w) ((responses w ++ [error_response (JStr s)])%list))
  /\ (handleUserError gt0 v w = (Return false, w') <->
      has_errors gt0 v = Return false /\ w' = w)
  /\ has_errors gt0 JUndefined = Return false
  /\ has_errors gt0 (JArr []) = Return false
  /\ (forall props,
        own_property "length" props = None ->
        has_errors gt0 (JObj props) = Return false)
  /\ (forall metafields msgs,
        has_errors gt0 (metafieldsSet_payload metafields msgs) = Return false).
Proof.
  rewrite handleUserError_unfold.
  split; [split|split; [split|]].
  - destruct (has_errors gt0 v) as [[|]|e] eqn:Hguard; try discriminate.
    destruct (joined_message v) as [s|e] eqn:Hmsg; [|discriminate].
    intros [= <-].
    destruct (joined_message_array _ _ Hmsg) as (elems & -> & Hall).
    exists elems, s. repeat split; try assumption.
    intros ->. discriminate.
  - intros (elems & s & -> & Hne & _ & Hmsg & ->).
    rewrite Hmsg. destruct elems; [contradiction|]. reflexivity.
  - destruct (has_errors gt0 v) as [[|]|e]; try discriminate.
    + destruct (joined_message v); discriminate.
    + intros [= <-]. split; reflexivity.
  - intros [-> ->]. reflexivity.
  - repeat split.
    intros props Hlen. unfold has_errors, length_gt_zero; cbn [truthy].
    rewrite Hlen. reflexivity.
Qed.

(** C10. When the create result has an empty or absent user-error list
    and no created record, the read of the record's [id] raises a
    TypeError, which is not a [GraphqlQueryError]: it leaves the handler
    uncaught, after the create call, with no response sent. *)
Theorem missing_record_throws_TypeError
    (kind : Kind) (graphqlClient : Client) (req : Request)
    (createData : QueryData) (createResponse result userErrors record : JsVal) :
  create_data kind (req_body req) = Return createData ->
  graphqlClient [] createData = Return createResponse ->
  createResult kind createResponse = Return result ->
  js_get result Key.userErrors = Return userErrors ->
  userErrors = JArr [] \/ userErrors = JUndefined ->
  js_get result (customization_key kind) = Return record ->
  record = JUndefined \/ record = JNull ->
  createCustomization gt0 kind graphqlClient req initial
  = (Throw TypeError, mkWorld [createData] [])
  /\ instanceof_GraphqlQueryError TypeError = false.
Proof.
  intros Hdata Hcall Hresult Herrors Hempty Hrecord Hnone.
  split; [|reflexivity].
  assert (Hno : has_errors gt0 userErrors = Return false)
    by (destruct Hempty as [-> | ->]; reflexivity).
  assert (Hid : (c <- Return record ;; js_get c Key.id)%outcome = Throw TypeError)
    by (destruct Hnone as [-> | ->]; reflexivity).
  destruct kind; cbn [create_data createResult customization_key] in *;
    unfold_handler;
    rewrite Hdata; cbn [calls responses initial app];
    rewrite Hcall, Hresult, Herrors;
    rewrite (handleUserError_no_errors _ _ Hno);
    rewrite Hrecord, Hid; reflexivity.
Qed.

End Theorems.

(** ** Further properties of the handlers *)

(** *** What the runtime operations can throw *)

Lemma js_get_throws (v : JsVal) (k : Key.name) (e : Exn) :
  js_get v k = Throw e -> e = TypeError.
Proof.
  destruct v as [| |b|s|elems|props]; cbn [js_get]; try discriminate;
    try (intros [= <-]; reflexivity).
  destruct (own_property (Key.to_string k) props); discriminate.
Qed.

Lemma js_get_optional_throws (v : JsVal) (k : Key.name) (e : Exn) :
  js_get_optional v k = Throw e -> e = TypeError.
Proof.
  destruct v; cbn [js_get_optional]; try discriminate; apply js_get_throws.
Qed.

Lemma obind_throws (A B : Type) (o : Outcome A) (k : A -> Outcome B) (e : Exn) :
  obind o k = Throw e ->
  o = Throw e \/ exists a, o = Return a /\ k a = Throw e.
Proof.
  destruct o as [a|e']; cbn [obind]; [right; eauto | intros [= ->]; left; reflexivity].
Qed.

Lemma Array_join_throws (sep : string) (l : list JsVal) (e : Exn) :
  Forall (fun x => forall e', ToString x = Throw e' -> e' = TypeError) l ->
  Array_join sep l = Throw e -> e = TypeError.
Proof.
  induction 1 as [|x rest Hx Hrest IH]; [discriminate|].
  cbn [Array_join]. intros H.
  apply obind_throws in H as [H | (s & _ & H)].
  - destruct x; cbn [join_element] in H; try discriminate; exact (Hx _ H).
  - destruct rest as [|y more]; [discriminate|].
    apply obind_throws in H as [H | (r & _ & H)]; [exact (IH H) | discriminate].
Qed.

Lemma ToString_throws (v : JsVal) (e : Exn) :
  ToString v = Throw e -> e = TypeError.
Proof.
  revert e. induction v as [| |b|s|elems IH|props _] using JsVal_nested_ind; intros e.
  - discriminate.
  - discriminate.
  - destruct b; discriminate.
  - discriminate.
  - rewrite ToString_array. apply Array_join_throws. exact IH.
  - cbn [ToString]. destruct (has_own_property "toString" props);
      [intros [= <-]; reflexivity | discriminate].
Qed.

Lemma Array_map_message_throws (l : list JsVal) (e : Exn) :
  Array_map (fun error => js_get error Key.message) l = Throw e -> e = TypeError.
Proof.
  induction l as [|x rest IH]; [discriminate|].
  cbn [Array_map]. intros H.
  apply obind_throws in H as [H | (y & _ & H)]; [exact (js_get_throws _ _ _ H)|].
  apply obind_throws in H as [H | (ys & _ & H)]; [exact (IH H) | discriminate].
Qed.

Lemma joined_message_throws (v : JsVal) (e : Exn) :
  joined_message v = Throw e -> e = TypeError.
Proof.
  unfold joined_message. intros H.
  apply obind_throws in H as [H | (ms & _ & H)].
  - destruct v; cbn [map_message] in H;
      try (injection H as <-; reflexivity).
    exact (Array_map_message_throws _ _ H).
  - apply (Array_join_throws " " ms); [|exact H].
    apply Forall_forall. intros x _ e'. apply ToString_throws.
Qed.

Section Paths.

Variable gt0 : string -> bool.

Lemma has_errors_throws (v : JsVal) (e : Exn) :
  has_errors gt0 v = Throw e -> e = TypeError.
Proof.
  unfold has_errors. destruct (truthy v); [|discriminate].
  destruct v as [| |b|s|elems|props]; cbn [length_gt_zero];
    try discriminate; try (intros [= <-]; reflexivity).
  destruct (own_property "length" props) as [w|]; [|discriminate].
  destruct w; cbn [gt_zero]; try discriminate;
    intros H; apply obind_throws in H as [H | (s' & _ & H)];
    (exact (ToString_throws _ _ H)) || discriminate.
Qed.

Lemma create_data_throws (kind : Kind) (payload : JsVal) (e : Exn) :
  create_data kind payload = Throw e -> e = TypeError.
Proof.
  destruct kind; cbn [create_data];
    unfold deliveryCustomizationCreate_data, paymentCustomizationCreate_data;
    intros H;
    repeat match type of H with
           | obind _ _ = Throw _ =>
               apply obind_throws in H as [H | (? & _ & H)]
           end;
    try discriminate;
    try exact (js_get_throws _ _ _ H); try exact (ToString_throws _ _ H).
Qed.

Lemma createResult_throws (kind : Kind) (r : JsVal) (e : Exn) :
  (cr <- createResult kind r ;; js_get cr Key.userErrors)%outcome = Throw e ->
  e = TypeError.
Proof.
  destruct kind; cbn [createResult];
    unfold delivery_createResult, payment_createResult;
    intros H;
    repeat match type of H with
           | obind _ _ = Throw _ =>
               apply obind_throws in H as [H | (? & _ & H)]
           end;
    try exact (js_get_throws _ _ _ H); try exact (js_get_optional_throws _ _ _ H).
Qed.

Lemma customization_id_throws (kind : Kind) (result : JsVal) (e : Exn) :
  customization_id kind result = Throw e -> e = TypeError.
Proof.
  unfold customization_id. intros H.
  apply obind_throws in H as [H | (? & _ & H)]; exact (js_get_throws _ _ _ H).
Qed.

Lemma metafieldsSet_result_throws (r : JsVal) (e : Exn) :
  metafieldsSet_result r = Throw e -> e = TypeError.
Proof.
  unfold metafieldsSet_result. intros H.
  repeat match type of H with
         | obind _ _ = Throw _ =>
             apply obind_throws in H as [H | (? & _ & H)]
         end;
    exact (js_get_throws _ _ _ H).
Qed.

(** Once the create query is built the payload is an object or a
    primitive, and the metafield-set query can be built too. *)
Lemma metafieldsSet_data_defined (kind : Kind) (payload : JsVal)
    (createData : QueryData) (customizationId : JsVal) :
  create_data kind payload = Return createData ->
  exists metafieldData,
    metafieldsSet_data kind payload customizationId = Return metafieldData.
Proof.
  destruct kind; cbn [create_data metafieldsSet_data];
    unfold deliveryCustomizationCreate_data, paymentCustomizationCreate_data,
      delivery_metafieldsSet_data, payment_metafieldsSet_data;
    destruct payload as [| |b|s|elems|props]; try discriminate; intros _;
    cbn [js_get obind]; try (eexists; reflexivity);
    repeat match goal with
           | |- context [own_property ?k props] => destruct (own_property k props)
           end;
    cbn [obind]; eexists; reflexivity.
Qed.

(** Both handlers are one sequence of steps, taken at their kind. *)
Lemma createCustomization_steps (kind : Kind) (graphqlClient : Client) (req : Request) :
  createCustomization gt0 kind graphqlClient req
  = (completion <-
       try_catch
         (createData <- lift (create_data kind (req_body req)) ;;
          createResponse <- graphqlClient_query graphqlClient createData ;;
          result <- lift (createResult kind createResponse) ;;
          userErrors <- lift (js_get result Key.userErrors) ;;
          handled <- handleUserError gt0 userErrors ;;
          if handled : bool then ret Returned
          else
            customizationId <- lift (customization_id kind result) ;;
            metafieldData <-
              lift (metafieldsSet_data kind (req_body req) customizationId) ;;
            metafieldResponse <- graphqlClient_query graphqlClient metafieldData ;;
            metafieldResult <- lift (metafieldsSet_result metafieldResponse) ;;
            handled <- handleUserError gt0 metafieldResult ;;
            if handled : bool then ret Returned else ret Normal)
         catch_clause ;;
     after_try completion)%handler.
Proof.
  destruct kind; reflexivity.
Qed.

(** Every run of a handler takes one of the paths of [Run]. *)
Lemma handler_run (kind : Kind) (graphqlClient : Client) (req : Request) :
  Run gt0 kind graphqlClient req
    (fst (createCustomization gt0 kind graphqlClient req initial))
    (snd (createCustomization gt0 kind graphqlClient req initial)).
Proof.
  rewrite createCustomization_steps.
  unfold bind, try_catch, lift, graphqlClient_query.
  cbn [calls responses initial app].
  destruct (create_data kind (req_body req)) as [q1|e] eqn:Hq1.
  2: { pose proof (create_data_throws _ _ _ Hq1) as ->.
       apply run_payload_unreadable. exact Hq1. }
  destruct (graphqlClient [] q1) as [r1|e] eqn:Hr1.
  2: { destruct e; cbn;
         [ eapply run_create_query_error | eapply run_create_throws
         | eapply run_create_throws ]; eauto. }
  destruct (createResult kind r1) as [cr|e] eqn:Hcr.
  2: { assert (He : (r <- createResult kind r1 ;; js_get r Key.userErrors)%outcome
                    = Throw e) by (rewrite Hcr; reflexivity).
       pose proof (createResult_throws _ _ _ He) as ->.
       eapply run_create_unreadable; eauto. }
  destruct (js_get cr Key.userErrors) as [ue|e] eqn:Hue.
  2: { pose proof (js_get_throws _ _ _ Hue) as ->.
       eapply run_create_unreadable; eauto. rewrite Hcr. exact Hue. }
  assert (Hcreate : create_answered kind graphqlClient req q1 cr ue)
    by (split; [exact Hq1 | exists r1; auto]).
  rewrite handleUserError_unfold. cbn [calls responses app].
  destruct (has_errors gt0 ue) as [[|]|e] eqn:Hguard.
  3: { pose proof (has_errors_throws _ _ Hguard) as ->.
       eapply run_create_check_throws; [exact Hcreate | left; exact Hguard]. }
  { destruct (joined_message ue) as [s|e] eqn:Hmsg.
    - eapply run_create_rejected; eauto.
    - pose proof (joined_message_throws _ _ Hmsg) as ->.
      eapply run_create_check_throws; [exact Hcreate | right; auto]. }
  unfold ret. cbn [calls responses].
  destruct (customization_id kind cr) as [cid|e] eqn:Hcid.
  2: { pose proof (customization_id_throws _ _ _ Hcid) as ->.
       eapply run_record_unreadable; eauto. }
  destruct (metafieldsSet_data_defined kind _ _ cid Hq1) as (q2 & Hq2).
  rewrite Hq2. cbn [calls responses app].
  assert (Hissued : configure_issued gt0 kind graphqlClient req q1 q2)
    by (exists cr, ue, cid; auto).
  destruct (graphqlClient [q1] q2) as [r2|e] eqn:Hr2.
  2: { destruct e; cbn;
         [ eapply run_configure_query_error | eapply run_configure_throws
         | eapply run_configure_throws ]; eauto. }
  destruct (metafieldsSet_result r2) as [mr|e] eqn:Hmr.
  2: { pose proof (metafieldsSet_result_throws _ _ Hmr) as ->.
       eapply run_configure_unreadable; eauto. }
  rewrite handleUserError_unfold. cbn [calls responses app].
  destruct (has_errors gt0 mr) as [[|]|e] eqn:Hguard2.
  3: { pose proof (has_errors_throws _ _ Hguard2) as ->.
       eapply run_configure_check_throws; eauto. left; exact Hguard2. }
  { destruct (joined_message mr) as [s|e] eqn:Hmsg.
    - eapply run_configure_rejected; eauto.
    - pose proof (joined_message_throws _ _ Hmsg) as ->.
      eapply run_configure_check_throws; eauto. right; auto. }
  eapply run_configured; eauto.
Qed.

(** X1.  A run of either handler ends in one of two ways: it returns
    after exactly one response, which is 200 with no body or 500 with
    an [error] field, or it throws and no response has been sent. *)
Theorem handler_answers_once_or_throws
    (kind : Kind) (graphqlClient : Client) (req : Request) :
  let run := createCustomization gt0 kind graphqlClient req initial in
  (fst run = Return tt
   /\ (responses (snd run) = [mkResponse 200 None]
       \/ exists detail, responses (snd run) = [error_response detail]))
  \/ (exists e, fst run = Throw e /\ responses (snd run) = []).
Proof.
  cbv zeta. pose proof (handler_run kind graphqlClient req) as H.
  destruct (createCustomization gt0 kind graphqlClient req initial) as [o w].
  cbn [fst snd] in *.
  destruct H; cbn [responses initial]; eauto 6.
Qed.

(** X2.  An exception that leaves a handler is never a
    [GraphqlQueryError]: it is a TypeError, or an exception of another
    class that one of the client's calls threw. *)
Theorem escaping_exception_is_no_query_error
    (kind : Kind) (graphqlClient : Client) (req : Request) (e : Exn) :
  fst (createCustomization gt0 kind graphqlClient req initial) = Throw e ->
  instanceof_GraphqlQueryError e = false
  /\ (e = TypeError
      \/ exists issued q, graphqlClient issued q = Throw e).
Proof.
  pose proof (handler_run kind graphqlClient req) as H.
  destruct (createCustomization gt0 kind graphqlClient req initial) as [o w].
  cbn [fst snd] in *. intros ->.
  inversion H; subst; split; eauto.
Qed.

(** X3.  A 200 response means that both mutations were issued, the
    create mutation first, and that the client answered both. *)
Theorem success_means_both_mutations_answered
    (kind : Kind) (graphqlClient : Client) (req : Request) :
  In (mkResponse 200 None)
     (responses (snd (createCustomization gt0 kind graphqlClient req initial))) ->
  exists createData metafieldData createResponse metafieldResponse,
    calls (snd (createCustomization gt0 kind graphqlClient req initial))
    = [createData; metafieldData]
    /\ is_MetafieldsSet createData = false
    /\ is_MetafieldsSet metafieldData = true
    /\ graphqlClient [] createData = Return createResponse
    /\ graphqlClient [createData] metafieldData = Return metafieldResponse.
Proof.
  pose proof (handler_run kind graphqlClient req) as H.
  destruct (createCustomization gt0 kind graphqlClient req initial) as [o w].
  cbn [fst snd] in *. intros Hin.
  destruct H; cbn [responses initial] in Hin;
    try contradiction;
    try (destruct Hin as [Hin | []]; discriminate Hin).
  match goal with
  | Hi : configure_issued _ _ _ _ _ _ |- _ =>
      destruct Hi as (cr & ue & cid & (Hq1 & r1 & Hr1 & _) & _ & _ & Hq2)
  end.
  exists createData, metafieldData, r1, metafieldResponse.
  repeat split; try assumption.
  - exact (create_data_not_MetafieldsSet _ _ _ Hq1).
  - destruct kind; cbn [metafieldsSet_data] in Hq2;
      unfold delivery_metafieldsSet_data, payment_metafieldsSet_data in Hq2;
      repeat match type of Hq2 with
             | obind ?o _ = _ => destruct o; cbn [obind] in Hq2; try discriminate
             end;
      injection Hq2 as <-; reflexivity.
Qed.

(** X4.  The metafield-set mutation is only ever the second call of a
    run, issued after the create mutation was answered with a result
    in which the user-error check found nothing, and it is built for
    the id read from that result's record. *)
Theorem metafield_call_follows_accepted_create
    (kind : Kind) (graphqlClient : Client) (req : Request) (q : QueryData) :
  In q (calls (snd (createCustomization gt0 kind graphqlClient req initial))) ->
  is_MetafieldsSet q = true ->
  exists createData createResponse result userErrors customizationId,
    calls (snd (createCustomization gt0 kind graphqlClient req initial))
    = [createData; q]
    /\ create_data kind (req_body req) = Return createData
    /\ graphqlClient [] createData = Return createResponse
    /\ createResult kind createResponse = Return result
    /\ js_get result Key.userErrors = Return userErrors
    /\ has_errors gt0 userErrors = Return false
    /\ customization_id kind result = Return customizationId
    /\ metafieldsSet_data kind (req_body req) customizationId = Return q.
Proof.
  pose proof (handler_run kind graphqlClient req) as H.
  destruct (createCustomization gt0 kind graphqlClient req initial) as [o w].
  cbn [fst snd] in *. intros Hin Hq.
  assert (Hfirst : forall q1, create_data kind (req_body req) = Return q1 -> q <> q1).
  { intros q1 Hq1 ->. apply create_data_not_MetafieldsSet in Hq1. congruence. }
  destruct H; cbn [calls initial In] in Hin |- *;
    repeat match goal with
           | Hc : create_answered _ _ _ _ _ _ |- _ => destruct Hc as (? & ? & ? & ? & ?)
           | Hi : configure_issued _ _ _ _ _ _ |- _ =>
               destruct Hi as (cr & ue & cid & (Hq1 & r1 & Hr1 & Hcr & Hue) & Hg & Hcid & Hq2)
           end;
    repeat match type of Hin with
           | _ \/ _ => destruct Hin as [Hin | Hin]
           | False => contradiction
           end;
    try (exfalso; eapply Hfirst; [eassumption | symmetry; exact Hin]);
    subst metafieldData;
    exists createData, r1, cr, ue, cid; repeat split; assumption.
Qed.

(** X5.  A run issues at most two calls and repeats none: nothing, the
    create mutation alone, or the create mutation followed by one
    metafield-set mutation. *)
Theorem at_most_two_calls
    (kind : Kind) (graphqlClient : Client) (req : Request) :
  let issued := calls (snd (createCustomization gt0 kind graphqlClient req initial)) in
  map is_MetafieldsSet issued = []
  \/ map is_MetafieldsSet issued = [false]
  \/ map is_MetafieldsSet issued = [false; true].
Proof.
  cbv zeta.
  destruct (handler_calls gt0 kind graphqlClient req)
    as [-> | (q1 & Hq1 & [-> | (cid & q2 & Hq2 & ->)])]; cbn [map].
  - left. reflexivity.
  - right. left. now rewrite (create_data_not_MetafieldsSet _ _ _ Hq1).
  - right. right. rewrite (create_data_not_MetafieldsSet _ _ _ Hq1).
    destruct kind; cbn [metafieldsSet_data] in Hq2;
      unfold delivery_metafieldsSet_data, payment_metafieldsSet_data in Hq2;
      repeat match type of Hq2 with
             | obind ?o _ = _ => destruct o; cbn [obind] in Hq2; try discriminate
             end;
      injection Hq2 as <-; reflexivity.
Qed.

(** X6.  When the client throws during the metafield-set call, both
    calls have been issued: a [GraphqlQueryError] is answered with 500
    and the exception's [response]; any other exception leaves the
    handler with nothing sent.  No further call is made either way. *)
Theorem configure_call_throws
    (kind : Kind) (graphqlClient : Client) (req : Request)
    (createData metafieldData : QueryData)
    (createResponse result customizationId : JsVal) (error : Exn) :
  create_data kind (req_body req) = Return createData ->
  graphqlClient [] createData = Return createResponse ->
  createResult kind createResponse = Return result ->
  js_get result Key.userErrors = Return (user_errors []) ->
  customization_id kind result = Return customizationId ->
  metafieldsSet_data kind (req_body req) customizationId = Return metafieldData ->
  graphqlClient [createData] metafieldData = Throw error ->
  createCustomization gt0 kind graphqlClient req initial
  = match error with
    | GraphqlQueryError response =>
        (Return tt, mkWorld [createData; metafieldData] [error_response response])
    | _ => (Throw error, mkWorld [createData; metafieldData] [])
    end.
Proof.
  intros Hdata Hcall Hresult Herrors Hid Hmeta Hcall2.
  rewrite createCustomization_steps.
  unfold bind, try_catch, lift, graphqlClient_query.
  rewrite Hdata. cbn [calls responses initial app].
  rewrite Hcall, Hresult, Herrors.
  rewrite handleUserError_no_errors by reflexivity.
  rewrite Hid, Hmeta. cbn [calls responses app].
  rewrite Hcall2. destruct error; reflexivity.
Qed.

(** X7.  When the answer to the create call has no readable create
    result (no [body], no [data], or no result under the mutation's
    name), reading its [userErrors] raises a TypeError that leaves the
    handler uncaught: no response is sent and no second call is made.
    The optional chaining of the payment handler does not change
    this. *)
Theorem unreadable_create_response_throws
    (kind : Kind) (graphqlClient : Client) (req : Request)
    (createData : QueryData) (createResponse : JsVal) (e : Exn) :
  create_data kind (req_body req) = Return createData ->
  graphqlClient [] createData = Return createResponse ->
  (r <- createResult kind createResponse ;; js_get r Key.userErrors)%outcome
  = Throw e ->
  createCustomization gt0 kind graphqlClient req initial
  = (Throw TypeError, mkWorld [createData] []).
Proof.
  intros Hdata Hcall Hread.
  pose proof (createResult_throws _ _ _ Hread) as ->.
  rewrite createCustomization_steps.
  unfold bind, try_catch, lift, graphqlClient_query.
  rewrite Hdata. cbn [calls responses initial app]. rewrite Hcall.
  destruct (createResult kind createResponse) as [cr|e'];
    cbn [obind] in Hread.
  - rewrite Hread. reflexivity.
  - injection Hread as ->. reflexivity.
Qed.

(** Deleting [requestName] changes no other property read. *)
Lemma js_get_delete_requestName (v : JsVal) (k : Key.name) :
  k <> Key.requestName ->
  js_get (js_delete v Key.requestName) k = js_get v k.
Proof.
  intros Hk.
  assert (Hne : String.eqb (Key.to_string k) "requestName" = false)
    by (destruct k; reflexivity || contradiction).
  destruct v as [| |b|s|elems|props]; try reflexivity.
  cbn [js_delete js_get Key.to_string].
  assert (Hown : own_property (Key.to_string k)
                   (filter (fun p => negb (String.eqb "requestName" (fst p))) props)
                 = own_property (Key.to_string k) props).
  { induction props as [|[k' w] rest IH]; [reflexivity|].
    cbn [filter fst own_property].
    destruct (String.eqb_spec "requestName" k') as [<- | Hk'];
      cbn [negb own_property].
    - rewrite Hne. exact IH.
    - rewrite IH. reflexivity. }
  rewrite Hown. reflexivity.
Qed.

(** The handlers never read [requestName]: they run the same on the
    body with and without it. *)
Lemma handler_ignores_requestName (kind : Kind) (graphqlClient : Client)
    (payload : JsVal) :
  createCustomization gt0 kind graphqlClient
    (mkRequest (js_delete payload Key.requestName))
  = createCustomization gt0 kind graphqlClient (mkRequest payload).
Proof.
  destruct kind; cbn [createCustomization];
    unfold createDeliveryCustomization, createPaymentCustomization;
    cbn [req_body];
    unfold deliveryCustomizationCreate_data, paymentCustomizationCreate_data,
      delivery_metafieldsSet_data, payment_metafieldsSet_data;
    rewrite !js_get_delete_requestName by discriminate;
    reflexivity.
Qed.

(** X8.  A request whose [requestName] is the name of a handler is
    handled exactly as that handler handles the request as received:
    removing [requestName] from the body changes nothing the handler
    does. *)
Theorem dispatch_runs_the_handler
    (kind : Kind) (graphqlClient : Client) (req : Request) (w : World) :
  js_get (req_body req) Key.requestName = Return (JStr (request_name kind)) ->
  post_api_graphql gt0 graphqlClient req w
  = createCustomization gt0 kind graphqlClient req w.
Proof.
  intros Hname. unfold post_api_graphql, bind, lift. rewrite Hname.
  pose proof (handler_ignores_requestName kind graphqlClient (req_body req)) as H.
  destruct req as [payload]. cbn [req_body] in *.
  destruct kind; cbn [request_name String.eqb Ascii.eqb Bool.eqb createCustomization] in *;
    rewrite H; reflexivity.
Qed.

Lemma Array_map_message_entries (msgs : list (option string)) :
  exists values,
    Array_map (fun error => js_get error Key.message) (map user_error_entry msgs)
    = Return values
    /\ Array_join " " values = Return (String.concat " " (map message_text msgs)).
Proof.
  induction msgs as [|m rest (values & Hmap & Hjoin)].
  - exists []. split; reflexivity.
  - cbn [map Array_map].
    exists ((match m with Some s => JStr s | None => JUndefined end) :: values).
    split.
    + destruct m; cbn; cbn in Hmap; rewrite Hmap; reflexivity.
    + cbn [Array_join]. destruct rest as [|m' rest'].
      * cbn in Hmap. injection Hmap as <-. destruct m; reflexivity.
      * destruct values as [|v values']; [cbn in Hmap;
          destruct (js_get (user_error_entry m') Key.message); cbn in Hmap;
          [destruct (Array_map _ _); discriminate | discriminate]|].
        rewrite Hjoin.
        change (String.concat " " (map message_text (m :: m' :: rest')))
          with (message_text m ++ " " ++
                String.concat " " (map message_text (m' :: rest'))).
        destruct m; reflexivity.
Qed.

(** X9.  A user-error entry without a [message] does not stop
    [handleUserError]: the entry adds an empty word to the joined
    message, its separating space included, and the 500 response is
    sent all the same. *)
Theorem entries_without_message_join_as_empty
    (msgs : list (option string)) (w : World) :
  msgs <> [] ->
  handleUserError gt0 (JArr (map user_error_entry msgs)) w
  = (Return true,
     mkWorld (calls w)
       ((responses w ++
         [error_response (JStr (String.concat " " (map message_text msgs)))])%list)).
Proof.
  intros Hne. rewrite handleUserError_unfold.
  assert (Hguard : has_errors gt0 (JArr (map user_error_entry msgs)) = Return true)
    by (destruct msgs; [contradiction | reflexivity]).
  rewrite Hguard. unfold joined_message, map_message.
  destruct (Array_map_message_entries msgs) as (values & -> & Hjoin).
  cbn [obind]. rewrite Hjoin. reflexivity.
Qed.

(** X10.  When the answer to the metafield-set call holds no result
    ([null], or nothing under [metafieldsSet]), the user-error check
    finds nothing and the handler answers 200 with an empty body. *)
Theorem absent_metafield_result_answers_200
    (kind : Kind) (graphqlClient : Client) (req : Request)
    (createData metafieldData : QueryData)
    (createResponse result customizationId metafieldResponse metafieldResult : JsVal) :
  create_data kind (req_body req) = Return createData ->
  graphqlClient [] createData = Return createResponse ->
  createResult kind createResponse = Return result ->
  js_get result Key.userErrors = Return (user_errors []) ->
  customization_id kind result = Return customizationId ->
  metafieldsSet_data kind (req_body req) customizationId = Return metafieldData ->
  graphqlClient [createData] metafieldData = Return metafieldResponse ->
  metafieldsSet_result metafieldResponse = Return metafieldResult ->
  metafieldResult = JNull \/ metafieldResult = JUndefined ->
  createCustomization gt0 kind graphqlClient req initial
  = (Return tt, mkWorld [createData; metafieldData] [mkResponse 200 None]).
Proof.
  intros Hdata Hcall Hresult Herrors Hid Hmeta Hcall2 Hresult2 Hnone.
  assert (Hno : has_errors gt0 metafieldResult = Return false)
    by (destruct Hnone as [-> | ->]; reflexivity).
  rewrite createCustomization_steps.
  unfold bind, try_catch, lift, graphqlClient_query.
  rewrite Hdata. cbn [calls responses initial app].
  rewrite Hcall, Hresult, Herrors.
  rewrite handleUserError_no_errors by reflexivity.
  rewrite Hid, Hmeta. cbn [calls responses app].
  rewrite Hcall2, Hresult2.
  rewrite (handleUserError_no_errors _ _ _ Hno). reflexivity.
Qed.




End Paths.

(** ** The properties at concrete requests *)

(** C1 at a payment request whose create mutation is rejected with two
    user errors. *)
Lemma create_user_errors_stop_witness :
  createCustomization no_string_is_positive Payment
    (rejecting_client ["A invalid"; "B required"]) payment_request initial
  = (Return tt,
     mkWorld [payment_create_query]
       [error_response (JStr "A invalid B required")])
  /\ is_MetafieldsSet payment_create_query = false.
Proof.
  refine (create_user_errors_stop no_string_is_positive Payment
            (rejecting_client ["A invalid"; "B required"]) payment_request
            payment_create_query _ _ ["A invalid"; "B required"] _ _ _ _ _).
  - reflexivity.
  - reflexivity.
  - reflexivity.
  - reflexivity.
  - discriminate.
Defined.

(** C4 at a delivery request whose two mutations succeed. *)
Lemma both_succeed_200_witness :
  createCustomization no_string_is_positive Delivery accepting_client
    delivery_request initial
  = (Return tt,
     mkWorld [delivery_create_query; delivery_metafield_query]
       [mkResponse 200 None]).
Proof.
  refine (both_succeed_200 no_string_is_positive Delivery accepting_client
            delivery_request delivery_create_query delivery_metafield_query
            _ _ (JStr "gid://shopify/Customization/1") _
            (JArr [JObj [("id", JStr "gid://shopify/Metafield/1")]])
            _ _ _ _ _ _ _ _); reflexivity.
Defined.

(** C6 at a payment request whose create call throws a query error. *)
Lemma create_call_throws_witness :
  createCustomization no_string_is_positive Payment
    (throwing_client (GraphqlQueryError (JStr "Throttled"))) payment_request initial
  = (Return tt, mkWorld [payment_create_query] [error_response (JStr "Throttled")]).
Proof.
  refine (create_call_throws no_string_is_positive Payment
            (throwing_client (GraphqlQueryError (JStr "Throttled")))
            payment_request payment_create_query
            (GraphqlQueryError (JStr "Throttled")) _ _); reflexivity.
Defined.

(** C7 at the request name ["unknown"]. *)
Lemma unknown_requestName_is_ignored_witness :
  post_api_graphql no_string_is_positive accepting_client unknown_request initial
  = (Return tt, initial).
Proof.
  refine (unknown_requestName_is_ignored no_string_is_positive accepting_client
            unknown_request (JStr "unknown") _ _ _).
  - reflexivity.
  - discriminate.
  - discriminate.
Defined.

(** C8 at the two errors ["A invalid"] and ["B required"]. *)
Lemma user_errors_joined_by_spaces_witness :
  handleUserError no_string_is_positive
    (user_errors ["A invalid"; "B required"]) initial
  = (Return true,
     mkWorld []
       [mkResponse 500 (Some (JObj [("error", JStr "A invalid B required")]))]).
Proof.
  refine (user_errors_joined_by_spaces no_string_is_positive
            ["A invalid"; "B required"] initial _).
  discriminate.
Defined.

(** C10 at a delivery request whose create result has no user error and
    a [null] record. *)
Lemma missing_record_throws_TypeError_witness :
  createCustomization no_string_is_positive Delivery recordless_client
    delivery_request initial
  = (Throw TypeError, mkWorld [delivery_create_query] [])
  /\ instanceof_GraphqlQueryError TypeError = false.
Proof.
  refine (missing_record_throws_TypeError no_string_is_positive Delivery
            recordless_client delivery_request delivery_create_query
            _ _ (JArr []) JNull _ _ _ _ _ _ _).
  - reflexivity.
  - reflexivity.
  - reflexivity.
  - reflexivity.
  - left. reflexivity.
  - reflexivity.
  - right. reflexivity.
Defined.

(** C9, as first stated, fails on a non-empty string: it is truthy and
    its length is greater than 0, yet [handleUserError] neither sends a
    response nor returns: a string has no [map] to call. *)
Lemma handleUserError_string_throws :
  has_errors no_string_is_positive (JStr "rejected") = Return true
  /\ handleUserError no_string_is_positive (JStr "rejected") initial
     = (Throw TypeError, initial).
Proof.
  split; reflexivity.
Qed.

(** ** The further properties at concrete requests *)

(** X2 at a delivery request whose create result has no record. *)
Lemma escaping_exception_is_no_query_error_witness :
  instanceof_GraphqlQueryError TypeError = false
  /\ (TypeError = TypeError
      \/ exists issued q, recordless_client issued q = Throw TypeError).
Proof.
  refine (escaping_exception_is_no_query_error no_string_is_positive Delivery
            recordless_client delivery_request TypeError _).
  reflexivity.
Defined.

(** X3 at a delivery request whose two mutations succeed. *)
Lemma success_means_both_mutations_answered_witness :
  exists createData metafieldData createResponse metafieldResponse,
    calls (snd (createCustomization no_string_is_positive Delivery
                  accepting_client delivery_request initial))
    = [createData; metafieldData]
    /\ is_MetafieldsSet createData = false
    /\ is_MetafieldsSet metafieldData = true
    /\ accepting_client [] createData = Return createResponse
    /\ accepting_client [createData] metafieldData = Return metafieldResponse.
Proof.
  refine (success_means_both_mutations_answered no_string_is_positive Delivery
            accepting_client delivery_request _).
  left. reflexivity.
Defined.

(** X4 at the metafield-set call of that run. *)
Lemma metafield_call_follows_accepted_create_witness :
  exists createData createResponse result userErrors customizationId,
    calls (snd (createCustomization no_string_is_positive Delivery
                  accepting_client delivery_request initial))
    = [createData; delivery_metafield_query]
    /\ create_data Delivery (req_body delivery_request) = Return createData
    /\ accepting_client [] createData = Return createResponse
    /\ createResult Delivery createResponse = Return result
    /\ js_get result Key.userErrors = Return userErrors
    /\ has_errors no_string_is_positive userErrors = Return false
    /\ customization_id Delivery result = Return customizationId
    /\ metafieldsSet_data Delivery (req_body delivery_request) customizationId
       = Return delivery_metafield_query.
Proof.
  refine (metafield_call_follows_accepted_create no_string_is_positive Delivery
            accepting_client delivery_request delivery_metafield_query _ _).
  - right. left. reflexivity.
  - reflexivity.
Defined.

(** X6 at a payment request whose metafield-set call throws a query
    error. *)
Lemma configure_call_throws_witness :
  createCustomization no_string_is_positive Payment
    (configure_throwing_client (GraphqlQueryError (JStr "Throttled")))
    payment_request initial
  = (Return tt,
     mkWorld [payment_create_query; payment_metafield_query]
       [error_response (JStr "Throttled")]).
Proof.
  refine (configure_call_throws no_string_is_positive Payment
            (configure_throwing_client (GraphqlQueryError (JStr "Throttled")))
            payment_request payment_create_query payment_metafield_query
            _ _ (JStr "gid://shopify/Customization/1")
            (GraphqlQueryError (JStr "Throttled")) _ _ _ _ _ _ _); reflexivity.
Defined.

(** X7 at a payment request whose create call is answered with an
    object that has no [body]. *)
Lemma unreadable_create_response_throws_witness :
  createCustomization no_string_is_positive Payment bodyless_client
    payment_request initial
  = (Throw TypeError, mkWorld [payment_create_query] []).
Proof.
  refine (unreadable_create_response_throws no_string_is_positive Payment
            bodyless_client payment_request payment_create_query (JObj [])
            TypeError _ _ _); reflexivity.
Defined.

(** X8 at the delivery request as the dispatcher receives it. *)
Lemma dispatch_runs_the_handler_witness :
  post_api_graphql no_string_is_positive accepting_client
    named_delivery_request initial
  = createCustomization no_string_is_positive Delivery accepting_client
      named_delivery_request initial.
Proof.
  refine (dispatch_runs_the_handler no_string_is_positive Delivery
            accepting_client named_delivery_request initial _).
  reflexivity.
Defined.

(** X9 at an entry without a message followed by the entry
    ["B required"]. *)
Lemma entries_without_message_join_as_empty_witness :
  handleUserError no_string_is_positive
    (JArr [JObj []; user_error "B required"]) initial
  = (Return true, mkWorld [] [error_response (JStr " B required")]).
Proof.
  refine (entries_without_message_join_as_empty no_string_is_positive
            [None; Some "B required"] initial _).
  discriminate.
Defined.

(** X10 at a delivery request whose metafield-set call is answered with
    a [null] result. *)
Lemma absent_metafield_result_answers_200_witness :
  createCustomization no_string_is_positive Delivery null_result_client
    delivery_request initial
  = (Return tt,
     mkWorld [delivery_create_query; delivery_metafield_query]
       [mkResponse 200 None]).
Proof.
  refine (absent_metafield_result_answers_200 no_string_is_positive Delivery
            null_result_client delivery_request delivery_create_query
            delivery_metafield_query _ _ (JStr "gid://shopify/Customization/1")
            _ JNull _ _ _ _ _ _ _ _ _); try reflexivity.
  left. reflexivity.
Defined.


